(** * Extension blueprints: [createExtensionBlueprint]

    A shallow embedding of
    [packages/frontend-plugin-api/src/wiring/createExtensionBlueprint.ts]
    and the properties of [make] and [makeWithOverrides].

    TypeScript types are erased at run time, so the embedding follows the
    run-time behaviour: an optional property is an [option] ([None] is
    [undefined]), a JavaScript object used as a record of named entries is a
    finite map over strings, and a call that may throw returns a [result]. *)

From stdpp Require Import gmap strings list fin_maps.

(** ** Values and thrown exceptions *)

Inductive result (E A : Type) : Type :=
  | Ok (a : A)
  | Throw (e : E).

Arguments Ok {E A} a.
Arguments Throw {E A} e.

(** Sequencing of two calls: when the first one throws, the second one is
    never run and the exception is the outcome. *)
Definition and_then {E A B} (m : result E A) (k : A → result E B) : result E B :=
  match m with
  | Ok a => k a
  | Throw e => Throw e
  end.

Notation "'let*' x ':=' m 'in' k" := (and_then m (fun x => k))
  (at level 10, x name, m at level 100, k at level 200).

(** The operator [a ?? b] of JavaScript, at a position where [b] may itself
    be [undefined]. *)
Definition nullish {A} (a b : option A) : option A :=
  match a with
  | Some x => Some x
  | None => b
  end.

(** [a ?? b] where [b] is always defined. *)
Definition nullish_or {A} (a : option A) (b : A) : A :=
  match a with
  | Some x => x
  | None => b
  end.

(** The spread [{ ...a }] of an object that may be [undefined]. *)
Definition spread {V} (a : option (gmap string V)) : gmap string V :=
  match a with
  | Some m => m
  | None => ∅
  end.

(** [{ ...a, ...b }]: the entries of [a], then the entries of [b] written
    over them. *)
Definition spread2 {V} (a b : option (gmap string V)) : gmap string V :=
  spread b ∪ spread a.

(** The truthiness test [a || b] on two optional objects, as used in a
    condition. *)
Definition either_defined {A B} (a : option A) (b : option B) : bool :=
  match a, b with
  | None, None => false
  | _, _ => true
  end.

Section Blueprint.

(** Opaque values that are threaded through and never inspected. *)
Context {AppNode ApiHolder : Type}.
(** [TParams], and the resolved configuration and inputs of a factory
    context. *)
Context {TParams TConfig ResolvedInputs : Type}.
(** [ResolveInputValueOverrides], [ExtensionInput], [AnyExtensionDataRef],
    and an entry [(zImpl) => z.ZodType] of a configuration schema. *)
Context {InputOverrides ExtensionInput ExtensionDataRef SchemaBuilder : Type}.
(** [Iterable<ExtensionDataValue>] and [ExtensionDataContainer], which is
    itself such an iterable. *)
Context {Values Container : Type}.
Context {ExtensionDefinition DataRefs Exn : Type}.

Record AttachTo := { attach_id : string; attach_input : string }.

Record ConfigDecl := { schema : gmap string SchemaBuilder }.

(** The context a factory is run with. *)
Record FactoryContext := {
  ctx_node : AppNode;
  ctx_apis : ApiHolder;
  ctx_config : TConfig;
  ctx_inputs : ResolvedInputs;
}.

(** The optional second argument of the bound original factory. *)
Record InnerContext := {
  inner_config : option TConfig;
  inner_inputs : option InputOverrides;
}.

(** The declaration handed to [createExtension]. *)
Record ExtensionOptions := {
  ext_kind : string;
  ext_namespace : option string;
  ext_name : option string;
  ext_attachTo : AttachTo;
  ext_disabled : option bool;
  ext_inputs : option (gmap string ExtensionInput);
  ext_output : list ExtensionDataRef;
  ext_config : option ConfigDecl;
  ext_factory : FactoryContext → result Exn Values;
}.

(** [CreateExtensionBlueprintOptions]. *)
Record CreateExtensionBlueprintOptions := {
  opt_kind : string;
  opt_namespace : option string;
  opt_attachTo : AttachTo;
  opt_disabled : option bool;
  opt_inputs : option (gmap string ExtensionInput);
  opt_output : list ExtensionDataRef;
  opt_name : option string;
  opt_config : option ConfigDecl;
  opt_factory : TParams → FactoryContext → result Exn Values;
  opt_dataRefs : option DataRefs;
}.

(** The argument of [make]. *)
Record MakeArgs := {
  arg_namespace : option string;
  arg_name : option string;
  arg_attachTo : option AttachTo;
  arg_disabled : option bool;
  arg_params : TParams;
}.

(** The bound original factory, as the override factory sees it. *)
Definition OriginalFactory : Type :=
  TParams → option InnerContext → result Exn Container.

(** The argument of [makeWithOverrides]. *)
Record OverrideArgs := {
  ov_namespace : option string;
  ov_name : option string;
  ov_attachTo : option AttachTo;
  ov_disabled : option bool;
  ov_inputs : option (gmap string ExtensionInput);
  ov_output : option (list ExtensionDataRef);
  ov_config : option ConfigDecl;
  ov_factory : OriginalFactory → FactoryContext → result Exn Values;
}.

(** *** External collaborators

    [createExtension], [createExtensionDataContainer] and
    [resolveInputOverrides] are imported from sibling modules; each may
    return or throw. *)
Variable extension_constructor :
  ExtensionOptions → result Exn ExtensionDefinition.
Variable createExtensionDataContainer :
  Values → list ExtensionDataRef → result Exn Container.
Variable resolveInputOverrides :
  option (gmap string ExtensionInput) → ResolvedInputs →
  option InputOverrides → result Exn ResolvedInputs.

(** Construction-time code runs against the record of the declarations
    that were handed to the extension constructor so far. *)
Definition Build (A : Type) : Type :=
  list ExtensionOptions → result Exn A * list ExtensionOptions.

(** One call of the imported [createExtension]. *)
Definition createExtension (d : ExtensionOptions) : Build ExtensionDefinition :=
  fun calls => (extension_constructor d, calls ++ [d]).

(** [ExtensionBlueprint]: the object returned by
    [createExtensionBlueprint]. *)
Record ExtensionBlueprint := {
  dataRefs : option DataRefs;
  make : MakeArgs → Build ExtensionDefinition;
  makeWithOverrides : OverrideArgs → Build ExtensionDefinition;
}.

(** The arrow function [(innerParams, innerContext) => ...] that
    [makeWithOverrides] passes to the override factory; [ctx] holds the
    [node], [config], [inputs] and [apis] the enclosing factory was run
    with. The property [inputs] of the object literal is evaluated before
    the call of [options.factory]. *)
Definition originalFactory (options : CreateExtensionBlueprintOptions)
    (ctx : FactoryContext) : OriginalFactory :=
  fun innerParams innerContext =>
    let* resolved :=
      resolveInputOverrides (opt_inputs options) (ctx_inputs ctx)
        (innerContext ≫= inner_inputs) in
    let* values :=
      opt_factory options innerParams
        {| ctx_apis := ctx_apis ctx;
           ctx_node := ctx_node ctx;
           ctx_config :=
             nullish_or (innerContext ≫= inner_config) (ctx_config ctx);
           ctx_inputs := resolved |} in
    createExtensionDataContainer values (opt_output options).

Definition createExtensionBlueprint (options : CreateExtensionBlueprintOptions)
    : ExtensionBlueprint :=
  {| dataRefs := opt_dataRefs options;
     make := fun args =>
       createExtension
         {| ext_kind := opt_kind options;
            ext_namespace := nullish (arg_namespace args) (opt_namespace options);
            ext_name := nullish (arg_name args) (opt_name options);
            ext_attachTo := nullish_or (arg_attachTo args) (opt_attachTo options);
            ext_disabled := nullish (arg_disabled args) (opt_disabled options);
            ext_inputs := opt_inputs options;
            ext_output := opt_output options;
            ext_config := opt_config options;
            ext_factory := fun ctx => opt_factory options (arg_params args) ctx |};
     makeWithOverrides := fun args =>
       createExtension
         {| ext_kind := opt_kind options;
            ext_namespace := nullish (ov_namespace args) (opt_namespace options);
            ext_name := nullish (ov_name args) (opt_name options);
            ext_attachTo := nullish_or (ov_attachTo args) (opt_attachTo options);
            ext_disabled := nullish (ov_disabled args) (opt_disabled options);
            ext_inputs := Some (spread2 (ov_inputs args) (opt_inputs options));
            ext_output := nullish_or (ov_output args) (opt_output options);
            ext_config :=
              if either_defined (opt_config options) (ov_config args)
              then Some {| schema :=
                             spread2 (schema <$> opt_config options)
                                     (schema <$> ov_config args) |}
              else None;
            ext_factory := fun ctx =>
              ov_factory args
                (originalFactory options ctx)
                {| ctx_apis := ctx_apis ctx;
                   ctx_node := ctx_node ctx;
                   ctx_config := ctx_config ctx;
                   ctx_inputs := ctx_inputs ctx |} |} |}.

(** The declarations a construction-time computation hands to the
    extension constructor when it starts from an empty record. *)
Definition passed {A} (m : Build A) : list ExtensionOptions := snd (m []).

(** *** Sequences of instantiations *)

Inductive Call :=
  | CallMake (args : MakeArgs)
  | CallMakeWithOverrides (args : OverrideArgs).

Definition perform (b : ExtensionBlueprint) (c : Call)
    : Build ExtensionDefinition :=
  match c with
  | CallMake args => make b args
  | CallMakeWithOverrides args => makeWithOverrides b args
  end.

(** The calls of [cs] one after the other; each result goes to the caller
    of that call, who may go on whether it was a value or an exception. *)
Fixpoint perform_all (b : ExtensionBlueprint) (cs : list Call)
    (calls : list ExtensionOptions) : list ExtensionOptions :=
  match cs with
  | [] => calls
  | c :: cs' => perform_all b cs' (snd (perform b c calls))
  end.

(** *** The override that only reuses the original factory

    [factory: originalFactory => originalFactory(params)]: the container
    that the bound original factory returns is returned as the iterable of
    the override. *)
Variable container_values : Container → Values.

Definition reuse_original (params : TParams)
    : OriginalFactory → FactoryContext → result Exn Values :=
  fun originalFactory _ =>
    let* container := originalFactory params None in
    Ok (container_values container).

(** [m?.[k]] on an object that may be [undefined]. *)
Definition entry {V} (m : option (gmap string V)) (k : string) : option V :=
  m ≫= (.!! k).

End Blueprint.

(** ** The helpers as the specification has them *)

(** Modelled from the spec: [resolveInputOverrides], imported from
    [./resolveInputOverrides], a module that is not among the sources.
    The specification has it take the declared input slots, the ambient
    resolved inputs and optional per-call overrides, and merge the
    overrides with the ambient inputs into the effective resolved inputs,
    the values of the inner call being preferred where both have one. It
    does not say what the declared slots are used for, and no failure of
    the helper is described. *)
Definition resolveInputOverrides_spec {Exn ExtensionInput V : Type}
    (declared : option (gmap string ExtensionInput))
    (inputs : gmap string V) (overrides : option (gmap string V))
    : result Exn (gmap string V) :=
  Ok (spread2 (Some inputs) overrides).


(** ** A sample blueprint

    Concrete types and collaborators on which the definitions above can be
    run: parameters are a number or [undefined], data values are pairs of a
    data reference id and a number, and an extension definition is the
    declaration it was built from. *)
Module Sample.

Definition Value : Type := string * nat.

Definition Options : Type :=
  CreateExtensionBlueprintOptions (AppNode := string) (ApiHolder := unit)
    (TParams := option nat) (TConfig := gmap string string)
    (ResolvedInputs := gmap string nat) (ExtensionInput := bool)
    (ExtensionDataRef := string) (SchemaBuilder := string)
    (Values := list Value) (DataRefs := unit) (Exn := string).

Definition Declaration : Type :=
  ExtensionOptions (AppNode := string) (ApiHolder := unit)
    (TConfig := gmap string string) (ResolvedInputs := gmap string nat)
    (ExtensionInput := bool) (ExtensionDataRef := string)
    (SchemaBuilder := string) (Values := list Value) (Exn := string).

Definition Ctx : Type :=
  FactoryContext (AppNode := string) (ApiHolder := unit)
    (TConfig := gmap string string) (ResolvedInputs := gmap string nat).

Definition Overrides : Type :=
  OverrideArgs (AppNode := string) (ApiHolder := unit)
    (TParams := option nat) (TConfig := gmap string string)
    (ResolvedInputs := gmap string nat)
    (InputOverrides := gmap string nat) (ExtensionInput := bool)
    (ExtensionDataRef := string) (SchemaBuilder := string)
    (Values := list Value) (Container := list Value) (Exn := string).

(** An extension constructor that refuses an empty kind. *)
Definition constructor (d : Declaration) : result string Declaration :=
  if decide (ext_kind d = "") then Throw "kind is required" else Ok d.

(** A container constructor that refuses a value whose data reference is
    not declared. *)
Definition container (values : list Value) (declared : list string)
    : result string (list Value) :=
  if forallb (fun v => bool_decide (v.1 ∈ declared)) values
  then Ok values
  else Throw "extension data was provided but not declared".

(** An input resolver that writes the overrides over the resolved
    inputs. *)
Definition resolver (declared : option (gmap string bool))
    (inputs : gmap string nat) (overrides : option (gmap string nat))
    : result string (gmap string nat) :=
  Ok (spread overrides ∪ inputs).

(** A factory that reads a property of its parameters, which throws when
    they are [undefined]. *)
Definition factory (params : option nat) (ctx : Ctx)
    : result string (list Value) :=
  match params with
  | Some n => Ok [("core.title", n)]
  | None => Throw "cannot read properties of undefined"
  end.

Definition options : Options :=
  {| opt_kind := "page";
     opt_namespace := Some "catalog";
     opt_attachTo := {| attach_id := "app/routes"; attach_input := "routes" |};
     opt_disabled := None;
     opt_inputs := Some {[ "tabs" := false ]};
     opt_output := ["core.title"];
     opt_name := None;
     opt_config := Some {| schema := {[ "title" := "string" ]} |};
     opt_factory := factory;
     opt_dataRefs := None |}.

Definition blueprint :=
  createExtensionBlueprint constructor container resolver options.

Definition context : Ctx :=
  {| ctx_node := "page:catalog";
     ctx_apis := tt;
     ctx_config := {[ "title" := "Catalog" ]};
     ctx_inputs := {[ "tabs" := 2 ]} |}.

(** Overrides that declare an input and a configuration key the blueprint
    has already, reached through a type-erased call, and replace the
    outputs. *)
Definition overlapping (params : option nat) : Overrides :=
  {| ov_namespace := None;
     ov_name := Some "index";
     ov_attachTo := None;
     ov_disabled := Some false;
     ov_inputs := Some {[ "tabs" := true; "cards" := true ]};
     ov_output := Some ["core.reactElement"];
     ov_config := Some {| schema := {[ "title" := "number"; "path" := "string" ]} |};
     ov_factory := reuse_original (fun c => c) params |}.

(** Overrides that only reuse the original factory. *)
Definition reusing (params : option nat) : Overrides :=
  {| ov_namespace := None;
     ov_name := None;
     ov_attachTo := None;
     ov_disabled := None;
     ov_inputs := None;
     ov_output := None;
     ov_config := None;
     ov_factory := reuse_original (fun c => c) params |}.

Definition instance (params : option nat) :=
  {| arg_namespace := None;
     arg_name := None;
     arg_attachTo := None;
     arg_disabled := None;
     arg_params := params |}.

(** An inner context that replaces the configuration and one input. *)
Definition inner : InnerContext :=
  {| inner_config := Some ({[ "title" := "Docs" ]} : gmap string string);
     inner_inputs := Some ({[ "tabs" := 5 ]} : gmap string nat) |}.

(** Overrides whose factory calls the original factory once and adds a
    value to what its container holds. *)
Definition extending (params : option nat) : Overrides :=
  {| ov_namespace := None;
     ov_name := None;
     ov_attachTo := None;
     ov_disabled := None;
     ov_inputs := None;
     ov_output := Some ["core.title"; "core.path"];
     ov_config := None;
     ov_factory := fun originalFactory _ =>
       let* box := originalFactory params None in
       Ok (box ++ [("core.path", 1)]) |}.


End Sample.

(** ** Properties of [make] and [makeWithOverrides] *)

Section Properties.

Context {AppNode ApiHolder TParams TConfig ResolvedInputs : Type}.
Context {InputOverrides ExtensionInput ExtensionDataRef SchemaBuilder : Type}.
Context {Values Container ExtensionDefinition DataRefs Exn : Type}.

Variable extension_constructor :
  ExtensionOptions (AppNode := AppNode) (ApiHolder := ApiHolder)
    (TConfig := TConfig) (ResolvedInputs := ResolvedInputs)
    (ExtensionInput := ExtensionInput) (ExtensionDataRef := ExtensionDataRef)
    (SchemaBuilder := SchemaBuilder) (Values := Values) (Exn := Exn)
  → result Exn ExtensionDefinition.
Variable createExtensionDataContainer :
  Values → list ExtensionDataRef → result Exn Container.
Variable resolveInputOverrides :
  option (gmap string ExtensionInput) → ResolvedInputs →
  option InputOverrides → result Exn ResolvedInputs.
Variable container_values : Container → Values.

Local Abbreviation Options :=
  (CreateExtensionBlueprintOptions (AppNode := AppNode)
     (ApiHolder := ApiHolder) (TParams := TParams) (TConfig := TConfig)
     (ResolvedInputs := ResolvedInputs) (ExtensionInput := ExtensionInput)
     (ExtensionDataRef := ExtensionDataRef) (SchemaBuilder := SchemaBuilder)
     (Values := Values) (DataRefs := DataRefs) (Exn := Exn)).
Local Abbreviation blueprint :=
  (createExtensionBlueprint extension_constructor
     createExtensionDataContainer resolveInputOverrides).
Local Abbreviation bound :=
  (originalFactory createExtensionDataContainer resolveInputOverrides).

Local Abbreviation Ctx :=
  (FactoryContext (AppNode := AppNode) (ApiHolder := ApiHolder)
     (TConfig := TConfig) (ResolvedInputs := ResolvedInputs)).
Local Abbreviation Inner :=
  (InnerContext (TConfig := TConfig) (InputOverrides := InputOverrides)).

(** The context the bound original factory runs the factory of the
    blueprint with, once the inputs are resolved. *)
Local Abbreviation base_context ctx ic resolved :=
  {| ctx_apis := ctx_apis ctx;
     ctx_node := ctx_node ctx;
     ctx_config := nullish_or (ic ≫= inner_config) (ctx_config ctx);
     ctx_inputs := resolved |}.

(** *** Merging of optional objects *)

Lemma entry_spread {V} (m : option (gmap string V)) k :
  spread m !! k = entry m k.
Proof. destruct m; [done | apply lookup_empty]. Qed.

Lemma spread2_lookup {V} (a b : option (gmap string V)) k :
  spread2 a b !! k = nullish (entry b k) (entry a k).
Proof.
  unfold spread2. rewrite lookup_union, !entry_spread.
  destruct (entry b k), (entry a k); reflexivity.
Qed.

Lemma spread2_dom {V} (a b : option (gmap string V)) :
  dom (spread2 a b) = dom (spread a) ∪ dom (spread b).
Proof. unfold spread2. rewrite dom_union_L. apply (comm_L (∪)). Qed.

(** *** The declaration of [make] *)

(** C1. For every blueprint and every [make] call, exactly one declaration
    is handed to the extension constructor; its kind is the kind of the
    blueprint, and its namespace, name, attachment target and disabled
    flag are those of the arguments where the arguments give them and
    those of the blueprint where the arguments leave them out. *)
Theorem make_declaration (o : Options) a :
  ∃ d, passed (make (blueprint o) a) = [d] ∧
    ext_kind d = opt_kind o ∧
    (∀ ns, arg_namespace a = Some ns → ext_namespace d = Some ns) ∧
    (arg_namespace a = None → ext_namespace d = opt_namespace o) ∧
    (∀ nm, arg_name a = Some nm → ext_name d = Some nm) ∧
    (arg_name a = None → ext_name d = opt_name o) ∧
    (∀ at', arg_attachTo a = Some at' → ext_attachTo d = at') ∧
    (arg_attachTo a = None → ext_attachTo d = opt_attachTo o) ∧
    (∀ dis, arg_disabled a = Some dis → ext_disabled d = Some dis) ∧
    (arg_disabled a = None → ext_disabled d = opt_disabled o).
Proof.
  eexists. split; [reflexivity |]. cbn.
  repeat split; intros;
    match goal with H : _ = _ |- _ => rewrite H end; reflexivity.
Qed.

(** *** Input slots of [makeWithOverrides] *)

(** C2. For every blueprint and every [makeWithOverrides] call, the input
    slots of the declaration handed to the extension constructor are the
    union of the inputs the blueprint declares and the additional inputs
    of the arguments: a name is a slot exactly when one of the two has
    it. *)
Theorem makeWithOverrides_inputs_union (o : Options) a :
  ∃ d m, passed (makeWithOverrides (blueprint o) a) = [d] ∧
    ext_inputs d = Some m ∧
    dom m = dom (spread (opt_inputs o)) ∪ dom (spread (ov_inputs a)) ∧
    ∀ k, is_Some (m !! k) ↔
         is_Some (entry (opt_inputs o) k) ∨ is_Some (entry (ov_inputs a) k).
Proof.
  eexists _, _. split; [reflexivity |]. split; [reflexivity |]. split.
  - rewrite spread2_dom. apply (comm_L (∪)).
  - intros k. rewrite spread2_lookup.
    destruct (entry (opt_inputs o) k), (entry (ov_inputs a) k); cbn;
      split; eauto; intros [[? ?] | [? ?]]; eauto; discriminate.
Qed.

(** C10. When a name is both an input the blueprint declares and an
    additional input of the [makeWithOverrides] arguments, the slot handed
    to the extension constructor under that name is the one of the
    blueprint; a configuration key that both schemas have goes the other
    way, to the entry of the arguments. *)
Theorem makeWithOverrides_inputs_base_wins (o : Options) a :
  ∃ d, passed (makeWithOverrides (blueprint o) a) = [d] ∧
    (∀ k base extra,
       entry (opt_inputs o) k = Some base →
       entry (ov_inputs a) k = Some extra →
       entry (ext_inputs d) k = Some base) ∧
    (∀ k base extra,
       entry (schema <$> opt_config o) k = Some base →
       entry (schema <$> ov_config a) k = Some extra →
       entry (schema <$> ext_config d) k = Some extra).
Proof.
  eexists. split; [reflexivity |]. cbn. split.
  - intros k base extra Hb He.
    rewrite spread2_lookup, Hb. reflexivity.
  - intros k base extra Hb He.
    destruct (opt_config o) as [c |]; [| discriminate].
    cbn. rewrite spread2_lookup, He. reflexivity.
Qed.

(** *** Configuration schema of [makeWithOverrides] *)

(** C3. When the blueprint has configuration schema [S] and the
    [makeWithOverrides] arguments have configuration schema [S'], the
    schema handed to the extension constructor has the keys of both; under
    a key of [S'] it holds the entry of [S'], also when [S] has that key,
    and under every other key it holds what [S] holds. *)
Theorem makeWithOverrides_config_override_wins (o : Options) a S S' :
  opt_config o = Some {| schema := S |} →
  ov_config a = Some {| schema := S' |} →
  ∃ d m, passed (makeWithOverrides (blueprint o) a) = [d] ∧
    ext_config d = Some {| schema := m |} ∧
    dom m = dom S ∪ dom S' ∧
    (∀ k v, S' !! k = Some v → m !! k = Some v) ∧
    (∀ k, S' !! k = None → m !! k = S !! k).
Proof.
  intros Ho Ha. eexists _, _. split; [reflexivity |]. cbn.
  rewrite Ho, Ha. cbn. split; [reflexivity |]. split.
  - apply (spread2_dom (Some S) (Some S')).
  - split; intros k; rewrite (spread2_lookup (Some S) (Some S')); cbn.
    + intros v ->. reflexivity.
    + intros ->. reflexivity.
Qed.

(** *** The bound original factory *)

Lemma context_rebuilt (ctx : Ctx) :
  {| ctx_apis := ctx_apis ctx; ctx_node := ctx_node ctx;
     ctx_config := ctx_config ctx; ctx_inputs := ctx_inputs ctx |} = ctx.
Proof. destruct ctx; reflexivity. Qed.

Lemma originalFactory_resolved (o : Options) (ctx : Ctx) p
    (ic : option Inner) resolved :
  resolveInputOverrides (opt_inputs o) (ctx_inputs ctx)
    (ic ≫= inner_inputs) = Ok resolved →
  bound o ctx p ic =
    let* values := opt_factory o p (base_context ctx ic resolved) in
    createExtensionDataContainer values (opt_output o).
Proof. intros H. unfold originalFactory. rewrite H. reflexivity. Qed.

Lemma makeWithOverrides_factory (o : Options) a calls :
  ∃ d, makeWithOverrides (blueprint o) a calls
         = (extension_constructor d, calls ++ [d]) ∧
    ∀ ctx, ext_factory d ctx = ov_factory a (bound o ctx) ctx.
Proof.
  eexists. split; [reflexivity |]. intros ctx. cbn.
  rewrite context_rebuilt. reflexivity.
Qed.

(** C4. In [makeWithOverrides] the output list handed to the extension
    constructor is the one of the arguments when they have one and the one
    of the blueprint otherwise; the callable handed to the override
    factory is the bound original factory of the blueprint, which does not
    depend on the arguments, and it wraps what the factory of the
    blueprint emits in a container built with the outputs the blueprint
    declares. *)
Theorem makeWithOverrides_output (o : Options) a :
  ∃ d, passed (makeWithOverrides (blueprint o) a) = [d] ∧
    (∀ out, ov_output a = Some out → ext_output d = out) ∧
    (ov_output a = None → ext_output d = opt_output o) ∧
    (∀ ctx, ext_factory d ctx = ov_factory a (bound o ctx) ctx) ∧
    (∀ ctx p ic resolved values,
       resolveInputOverrides (opt_inputs o) (ctx_inputs ctx)
         (ic ≫= inner_inputs) = Ok resolved →
       opt_factory o p (base_context ctx ic resolved) = Ok values →
       bound o ctx p ic
         = createExtensionDataContainer values (opt_output o)).
Proof.
  destruct (makeWithOverrides_factory o a []) as (d & Hd & Hf).
  exists d. unfold passed. rewrite Hd. split; [reflexivity |].
  injection Hd as _ <-. cbn. repeat split.
  - intros out ->. reflexivity.
  - intros ->. reflexivity.
  - intros ctx. rewrite context_rebuilt. reflexivity.
  - intros ctx p' ic resolved values Hr Hv.
    rewrite (originalFactory_resolved _ _ _ _ _ Hr), Hv. reflexivity.
Qed.

(** C5, as the code has it. The factory of the blueprint is run with the
    very parameters the bound original factory is called with: once the
    inputs are resolved the outcome is that of the factory at these
    parameters, and two blueprints whose factories agree at these
    parameters give the same outcome. [makeWithOverrides] holds no
    parameters that could stand in for a missing argument. *)
Theorem originalFactory_params (o : Options) (ctx : Ctx) p (ic : option Inner) :
  (∀ resolved,
     resolveInputOverrides (opt_inputs o) (ctx_inputs ctx)
       (ic ≫= inner_inputs) = Ok resolved →
     bound o ctx p ic =
       let* values := opt_factory o p (base_context ctx ic resolved) in
       createExtensionDataContainer values (opt_output o)) ∧
  (∀ o' : Options,
     opt_inputs o' = opt_inputs o →
     opt_output o' = opt_output o →
     (∀ c, opt_factory o' p c = opt_factory o p c) →
     bound o' ctx p ic = bound o ctx p ic).
Proof.
  split.
  - apply originalFactory_resolved.
  - intros o' Hi Ho Hf. unfold originalFactory. rewrite Hi, Ho.
    destruct (resolveInputOverrides _ _ _); cbn; [| reflexivity].
    rewrite Hf. reflexivity.
Qed.

(** *** An override that only reuses the original factory *)


(** *** The kind of a blueprint *)

Lemma perform_all_kind (o : Options) cs : ∀ calls,
  Forall (λ d, ext_kind d = opt_kind o) calls →
  Forall (λ d, ext_kind d = opt_kind o) (perform_all (blueprint o) cs calls).
Proof.
  induction cs as [| c cs IH]; intros calls Hcalls; [exact Hcalls |].
  cbn [perform_all]. apply IH.
  destruct c; cbn; apply Forall_app; split; try exact Hcalls;
    apply Forall_singleton; reflexivity.
Qed.

Lemma perform_all_length (o : Options) cs : ∀ calls,
  length (perform_all (blueprint o) cs calls) = length calls + length cs.
Proof.
  induction cs as [| c cs IH]; intros calls; cbn [perform_all length].
  - lia.
  - rewrite IH. destruct c; cbn; rewrite length_app; cbn; lia.
Qed.

(** C8. After any sequence of [make] and [makeWithOverrides] calls on a
    blueprint, with any arguments, there is one declaration per call and
    the kind of each is the kind the blueprint was constructed with;
    namespace, name, attachment target, disabled flag and parameters can
    be chosen freely per call. *)
Theorem kind_is_invariant (o : Options) :
  (∀ cs,
     Forall (λ d, ext_kind d = opt_kind o)
       (perform_all (blueprint o) cs []) ∧
     length (perform_all (blueprint o) cs []) = length cs) ∧
  (∀ p ns nm at' dis, ∃ a d,
     passed (make (blueprint o) a) = [d] ∧
     ext_kind d = opt_kind o ∧
     ext_namespace d = Some ns ∧ ext_name d = Some nm ∧
     ext_attachTo d = at' ∧ ext_disabled d = Some dis ∧
     ∀ ctx, ext_factory d ctx = opt_factory o p ctx).
Proof.
  split.
  - intros cs. split.
    + apply perform_all_kind. constructor.
    + rewrite perform_all_length. reflexivity.
  - intros p ns nm at' dis.
    exists {| arg_namespace := Some ns; arg_name := Some nm;
              arg_attachTo := Some at'; arg_disabled := Some dis;
              arg_params := p |}.
    eexists. split; [reflexivity |]. cbn. repeat split.
Qed.

(** *** Exceptions *)

(** C9. [make] and [makeWithOverrides] each call the extension constructor
    once and return what it returns, value or exception; the factory of
    the declaration has the outcome of the supplied factory, value or
    exception; and an exception of the override-resolution helper, of the
    factory of the blueprint or of the container constructor is the
    outcome of the bound original factory. *)
Theorem errors_propagate (o : Options) :
  (∀ a calls, ∃ d,
     make (blueprint o) a calls = (extension_constructor d, calls ++ [d]) ∧
     ∀ ctx, ext_factory d ctx = opt_factory o (arg_params a) ctx) ∧
  (∀ a calls, ∃ d,
     makeWithOverrides (blueprint o) a calls
       = (extension_constructor d, calls ++ [d]) ∧
     ∀ ctx, ext_factory d ctx = ov_factory a (bound o ctx) ctx) ∧
  (∀ (ctx : Ctx) p (ic : option Inner) e,
     resolveInputOverrides (opt_inputs o) (ctx_inputs ctx)
       (ic ≫= inner_inputs) = Throw e →
     bound o ctx p ic = Throw e) ∧
  (∀ (ctx : Ctx) p (ic : option Inner) resolved e,
     resolveInputOverrides (opt_inputs o) (ctx_inputs ctx)
       (ic ≫= inner_inputs) = Ok resolved →
     opt_factory o p (base_context ctx ic resolved) = Throw e →
     bound o ctx p ic = Throw e) ∧
  (∀ (ctx : Ctx) p (ic : option Inner) resolved values e,
     resolveInputOverrides (opt_inputs o) (ctx_inputs ctx)
       (ic ≫= inner_inputs) = Ok resolved →
     opt_factory o p (base_context ctx ic resolved) = Ok values →
     createExtensionDataContainer values (opt_output o) = Throw e →
     bound o ctx p ic = Throw e).
Proof.
  split; [| split; [| split; [| split]]].
  - intros a calls. eexists. split; reflexivity.
  - intros a calls. apply makeWithOverrides_factory.
  - intros ctx p ic e H. unfold originalFactory. rewrite H. reflexivity.
  - intros ctx p ic resolved e Hr Hf.
    rewrite (originalFactory_resolved _ _ _ _ _ Hr), Hf. reflexivity.
  - intros ctx p ic resolved values e Hr Hf Hc.
    rewrite (originalFactory_resolved _ _ _ _ _ Hr), Hf. exact Hc.
Qed.

(** *** Further properties of [makeWithOverrides] *)

(** X1. The declaration of [makeWithOverrides] is identified like the one of
    [make]: namespace, name, attachment target and disabled flag are those
    of the arguments where the arguments give them, also when the value
    given is [false] or an empty string, and those of the blueprint
    otherwise. *)
Theorem makeWithOverrides_declaration (o : Options) a :
  ∃ d, passed (makeWithOverrides (blueprint o) a) = [d] ∧
    (∀ ns, ov_namespace a = Some ns → ext_namespace d = Some ns) ∧
    (ov_namespace a = None → ext_namespace d = opt_namespace o) ∧
    (∀ nm, ov_name a = Some nm → ext_name d = Some nm) ∧
    (ov_name a = None → ext_name d = opt_name o) ∧
    (∀ at', ov_attachTo a = Some at' → ext_attachTo d = at') ∧
    (ov_attachTo a = None → ext_attachTo d = opt_attachTo o) ∧
    (∀ dis, ov_disabled a = Some dis → ext_disabled d = Some dis) ∧
    (ov_disabled a = None → ext_disabled d = opt_disabled o).
Proof.
  eexists. split; [reflexivity |]. cbn.
  repeat split; intros;
    match goal with H : _ = _ |- _ => rewrite H end; reflexivity.
Qed.

(** X2. The inputs [makeWithOverrides] hands to the extension constructor
    are always an object: under a name the blueprint declares it holds the
    slot of the blueprint, under any other name the slot of the arguments
    unchanged; it is the object of one side when the other side has none,
    and the empty object when neither side has inputs. *)
Theorem makeWithOverrides_inputs_entries (o : Options) a :
  ∃ d m, passed (makeWithOverrides (blueprint o) a) = [d] ∧
    ext_inputs d = Some m ∧
    (∀ k slot, entry (opt_inputs o) k = Some slot → m !! k = Some slot) ∧
    (∀ k, entry (opt_inputs o) k = None → m !! k = entry (ov_inputs a) k) ∧
    (∀ g, opt_inputs o = Some g → ov_inputs a = None → m = g) ∧
    (∀ g, opt_inputs o = None → ov_inputs a = Some g → m = g) ∧
    (opt_inputs o = None → ov_inputs a = None → m = ∅).
Proof.
  eexists _, _. split; [reflexivity |]. split; [reflexivity |].
  split; [| split; [| split; [| split]]].
  - intros k slot H. rewrite spread2_lookup, H. reflexivity.
  - intros k H. rewrite spread2_lookup, H. reflexivity.
  - intros g -> ->. unfold spread2. cbn. apply (right_id_L ∅ (∪)).
  - intros g -> ->. unfold spread2. cbn. apply (left_id_L ∅ (∪)).
  - intros -> ->. unfold spread2. cbn. apply (left_id_L ∅ (∪)).
Qed.

(** X3. The configuration [makeWithOverrides] hands to the extension
    constructor is [undefined] exactly when neither the blueprint nor the
    arguments have one; when only one side has a configuration, the schema
    handed on has exactly the entries of that side. *)
Theorem makeWithOverrides_config_presence (o : Options) a :
  ∃ d, passed (makeWithOverrides (blueprint o) a) = [d] ∧
    (ext_config d = None ↔ opt_config o = None ∧ ov_config a = None) ∧
    (∀ c, opt_config o = Some c → ov_config a = None → ext_config d = Some c) ∧
    (∀ c, opt_config o = None → ov_config a = Some c → ext_config d = Some c).
Proof.
  eexists. split; [reflexivity |]. cbn. split; [| split].
  - destruct (opt_config o), (ov_config a); cbn; split;
      try discriminate; try reflexivity; try (intros [? ?]; discriminate).
    intros _. split; reflexivity.
  - intros [S] -> ->. cbn. unfold spread2. cbn.
    rewrite (left_id_L ∅ (∪)). reflexivity.
  - intros [S] -> ->. cbn. unfold spread2. cbn.
    rewrite (right_id_L ∅ (∪)). reflexivity.
Qed.

(** X4. Calling the bound original factory without an inner context is the
    same as calling it with an empty one: the override-resolution helper is
    given no overrides, and the factory of the blueprint is run with the
    configuration the enclosing factory was run with. *)
Theorem originalFactory_without_context (o : Options) (ctx : Ctx) p :
  bound o ctx p None
    = bound o ctx p (Some {| inner_config := None; inner_inputs := None |}) ∧
  ∀ resolved,
    resolveInputOverrides (opt_inputs o) (ctx_inputs ctx) None = Ok resolved →
    bound o ctx p None =
      let* values :=
        opt_factory o p
          {| ctx_node := ctx_node ctx; ctx_apis := ctx_apis ctx;
             ctx_config := ctx_config ctx; ctx_inputs := resolved |} in
      createExtensionDataContainer values (opt_output o).
Proof.
  split; [reflexivity |]. intros resolved H.
  exact (originalFactory_resolved o ctx p None resolved H).
Qed.

(** X5. An override factory that calls the bound original factory once,
    with the parameters of a [make] call and no inner context, and goes on
    with its container, composes with [make]: where the override-resolution
    helper returns the resolved inputs unchanged when it is given no
    overrides, the factory of the [makeWithOverrides] declaration runs the
    factory of the [make] declaration, builds the container with the
    outputs of the blueprint, and goes on as the override does; an exception
    of any of the three is its outcome. *)
Theorem override_after_original (o : Options) a ov
    (next : Container → Ctx → result Exn Values) (ctx : Ctx) :
  (∀ orig c, ov_factory ov orig c =
     let* box := orig (arg_params a) None in next box c) →
  resolveInputOverrides (opt_inputs o) (ctx_inputs ctx) None
    = Ok (ctx_inputs ctx) →
  ∃ d1 d2,
    passed (make (blueprint o) a) = [d1] ∧
    passed (makeWithOverrides (blueprint o) ov) = [d2] ∧
    ext_factory d2 ctx =
      let* values := ext_factory d1 ctx in
      let* box := createExtensionDataContainer values (opt_output o) in
      next box ctx.
Proof.
  intros Hov Hres.
  eexists _, _. split; [reflexivity |]. split; [reflexivity |]. cbn.
  rewrite Hov, (originalFactory_resolved o ctx _ None _ Hres). cbn.
  rewrite !context_rebuilt.
  destruct (opt_factory o (arg_params a) ctx); reflexivity.
Qed.

(** X6. A [makeWithOverrides] call that brings no inputs, outputs or
    configuration of its own hands the extension constructor the outputs a
    [make] call hands it and a configuration with the same schema entries,
    which are those of the blueprint, and, for equal identifying arguments,
    the same kind, namespace, name, attachment target and disabled flag.
    The inputs have the same entries, but where [make] hands on [undefined]
    for a blueprint without inputs, [makeWithOverrides] hands on an empty
    object. *)
Theorem makeWithOverrides_plain_declaration (o : Options) a ov :
  ov_inputs ov = None → ov_output ov = None → ov_config ov = None →
  ov_namespace ov = arg_namespace a → ov_name ov = arg_name a →
  ov_attachTo ov = arg_attachTo a → ov_disabled ov = arg_disabled a →
  ∃ d1 d2,
    passed (make (blueprint o) a) = [d1] ∧
    passed (makeWithOverrides (blueprint o) ov) = [d2] ∧
    ext_kind d2 = ext_kind d1 ∧
    ext_namespace d2 = ext_namespace d1 ∧
    ext_name d2 = ext_name d1 ∧
    ext_attachTo d2 = ext_attachTo d1 ∧
    ext_disabled d2 = ext_disabled d1 ∧
    ext_output d2 = ext_output d1 ∧ ext_output d1 = opt_output o ∧
    ext_config d2 = ext_config d1 ∧ ext_config d1 = opt_config o ∧
    ext_inputs d1 = opt_inputs o ∧
    ext_inputs d2 = Some (spread (ext_inputs d1)) ∧
    (∀ k, entry (ext_inputs d2) k = entry (ext_inputs d1) k).
Proof.
  intros Hi Ho Hc Hns Hnm Hat Hdis.
  eexists _, _. split; [reflexivity |]. split; [reflexivity |]. cbn.
  rewrite Hi, Ho, Hc, Hns, Hnm, Hat, Hdis. cbn.
  assert (Hin : spread2 None (opt_inputs o) = spread (opt_inputs o)).
  { unfold spread2. cbn. apply (right_id_L ∅ (∪)). }
  repeat split.
  - destruct (opt_config o) as [[S] |]; cbn; [| reflexivity].
    unfold spread2. cbn. rewrite (left_id_L ∅ (∪)). reflexivity.
  - rewrite Hin. reflexivity.
  - intros k. rewrite Hin. cbn. apply entry_spread.
Qed.

End Properties.

(** ** Inner input overrides, with the helper as the specification has it *)

Section InnerOverrides.

Context {AppNode ApiHolder TParams TConfig ExtensionInput : Type}.
Context {ExtensionDataRef SchemaBuilder Values Container DataRefs Exn : Type}.
(** The content of a resolved input. *)
Context {V : Type}.

Variable createExtensionDataContainer :
  Values → list ExtensionDataRef → result Exn Container.

Local Abbreviation Options :=
  (CreateExtensionBlueprintOptions (AppNode := AppNode)
     (ApiHolder := ApiHolder) (TParams := TParams) (TConfig := TConfig)
     (ResolvedInputs := gmap string V) (ExtensionInput := ExtensionInput)
     (ExtensionDataRef := ExtensionDataRef) (SchemaBuilder := SchemaBuilder)
     (Values := Values) (DataRefs := DataRefs) (Exn := Exn)).
Local Abbreviation Ctx :=
  (FactoryContext (AppNode := AppNode) (ApiHolder := ApiHolder)
     (TConfig := TConfig) (ResolvedInputs := gmap string V)).
Local Abbreviation Inner :=
  (InnerContext (TConfig := TConfig) (InputOverrides := gmap string V)).

(** C6. When the bound original factory is called with an inner context,
    the factory of the blueprint is run with the same node and apis, with
    the inner configuration when there is one and the enclosing one
    otherwise, and with the inputs the override-resolution helper returns
    for the declared inputs of the blueprint, the inputs the enclosing
    factory was run with and the inner input overrides, whatever the helper
    is. With the helper as the specification has it, these inputs hold the
    inner value under every name the inner overrides have, and the value
    of the enclosing call under every other name. *)
Theorem originalFactory_inner_prevails (o : Options) (ctx : Ctx) p
    (ic : Inner) :
  (∀ resolve resolved,
     resolve (opt_inputs o) (ctx_inputs ctx) (inner_inputs ic) = Ok resolved →
     ∃ ctx' : Ctx,
       originalFactory createExtensionDataContainer resolve o ctx p (Some ic) =
         (let* values := opt_factory o p ctx' in
          createExtensionDataContainer values (opt_output o)) ∧
       ctx_node ctx' = ctx_node ctx ∧
       ctx_apis ctx' = ctx_apis ctx ∧
       ctx_inputs ctx' = resolved ∧
       (∀ cfg, inner_config ic = Some cfg → ctx_config ctx' = cfg) ∧
       (inner_config ic = None → ctx_config ctx' = ctx_config ctx)) ∧
  (∃ ctx' : Ctx,
     originalFactory createExtensionDataContainer resolveInputOverrides_spec
       o ctx p (Some ic) =
       (let* values := opt_factory o p ctx' in
        createExtensionDataContainer values (opt_output o)) ∧
     (∀ cfg, inner_config ic = Some cfg → ctx_config ctx' = cfg) ∧
     (inner_config ic = None → ctx_config ctx' = ctx_config ctx) ∧
     (∀ over k v, inner_inputs ic = Some over → over !! k = Some v →
        ctx_inputs ctx' !! k = Some v) ∧
     (∀ over k, inner_inputs ic = Some over → over !! k = None →
        ctx_inputs ctx' !! k = ctx_inputs ctx !! k) ∧
     (inner_inputs ic = None → ctx_inputs ctx' = ctx_inputs ctx)).
Proof.
  split.
  - intros resolve resolved Hr.
    eexists. split.
    + exact (originalFactory_resolved createExtensionDataContainer resolve
               o ctx p (Some ic) resolved Hr).
    + cbn. repeat split.
      * intros cfg ->. reflexivity.
      * intros ->. reflexivity.
  - eexists. split.
    + exact (originalFactory_resolved createExtensionDataContainer
               resolveInputOverrides_spec o ctx p (Some ic) _ eq_refl).
    + cbn. split; [| split; [| split; [| split]]].
      * intros cfg ->. reflexivity.
      * intros ->. reflexivity.
      * intros over k v -> Hk.
        rewrite (spread2_lookup (Some (ctx_inputs ctx)) (Some over)).
        cbn. rewrite Hk. reflexivity.
      * intros over k -> Hk.
        rewrite (spread2_lookup (Some (ctx_inputs ctx)) (Some over)).
        cbn. rewrite Hk. reflexivity.
      * intros ->. unfold spread2. cbn. apply (left_id_L ∅ (∪)).
Qed.

End InnerOverrides.

(** ** The properties on the sample blueprint *)

Lemma makeWithOverrides_config_override_wins_sample :
  let S : gmap string string := {[ "title" := "string" ]} in
  let S' : gmap string string := {[ "title" := "number"; "path" := "string" ]} in
  opt_config Sample.options = Some {| schema := S |} ∧
  ov_config (Sample.overlapping None) = Some {| schema := S' |} ∧
  ∃ d m,
    passed (makeWithOverrides Sample.blueprint (Sample.overlapping None)) = [d] ∧
    ext_config d = Some {| schema := m |} ∧
    dom m = dom S ∪ dom S' ∧
    (∀ k v, S' !! k = Some v → m !! k = Some v) ∧
    (∀ k, S' !! k = None → m !! k = S !! k).
Proof.
  intros S S'. split; [reflexivity |]. split; [reflexivity |].
  apply (makeWithOverrides_config_override_wins
           Sample.constructor Sample.container Sample.resolver
           Sample.options (Sample.overlapping None) S S'); reflexivity.
Defined.

Lemma originalFactory_inner_prevails_sample :
  ctx_inputs Sample.context !! "tabs" = Some 2 ∧
  entry (inner_inputs Sample.inner) "tabs" = Some 5 ∧
  ∃ ctx' : Sample.Ctx,
    originalFactory Sample.container resolveInputOverrides_spec
      Sample.options Sample.context (Some 7) (Some Sample.inner)
    = (let* values := opt_factory Sample.options (Some 7) ctx' in
       Sample.container values (opt_output Sample.options)) ∧
    (∀ cfg, inner_config Sample.inner = Some cfg → ctx_config ctx' = cfg) ∧
    (inner_config Sample.inner = None →
     ctx_config ctx' = ctx_config Sample.context) ∧
    (∀ over k v, inner_inputs Sample.inner = Some over → over !! k = Some v →
       ctx_inputs ctx' !! k = Some v) ∧
    (∀ over k, inner_inputs Sample.inner = Some over → over !! k = None →
       ctx_inputs ctx' !! k = ctx_inputs Sample.context !! k) ∧
    (inner_inputs Sample.inner = None →
     ctx_inputs ctx' = ctx_inputs Sample.context).
Proof.
  split; [reflexivity |]. split; [reflexivity |].
  exact (proj2 (originalFactory_inner_prevails Sample.container
                  Sample.options Sample.context (Some 7) Sample.inner)).
Defined.



(** C5, as the claim has it, fails: called without parameters, the bound
    original factory runs the factory of the blueprint with [undefined], and
    the outcome is that of no call with defined parameters. *)
Lemma originalFactory_without_params_undefined :
  let run p :=
    originalFactory Sample.container Sample.resolver Sample.options
      Sample.context p None in
  run None = Throw "cannot read properties of undefined" ∧
  (∀ n, run (Some n) = Ok [("core.title", n)]) ∧
  ∀ n, run None ≠ run (Some n).
Proof.
  intros run. split; [reflexivity |]. split; [reflexivity |].
  intros n H. discriminate H.
Qed.

(** On the sample blueprint, with the input ["tabs"] and the configuration
    key ["title"] declared on both sides: the input slot is the one of the
    blueprint, the schema entry is the one of the override. *)
Example overlapping_entries :
  (λ d, (entry (ext_inputs d) "tabs", entry (schema <$> ext_config d) "title"))
    <$> passed (makeWithOverrides Sample.blueprint (Sample.overlapping None))
  = [(Some false, Some "number")].
Proof. vm_compute. reflexivity. Qed.

(** On the sample blueprint, [make] and the override that reuses the
    original factory with the same parameters emit the same values. *)
Example reusing_emits :
  (λ d, ext_factory d Sample.context)
    <$> passed (makeWithOverrides Sample.blueprint (Sample.reusing (Some 3)))
  = [Ok [("core.title", 3)]].
Proof. vm_compute. reflexivity. Qed.

Lemma override_after_original_sample :
  let next : list Sample.Value → Sample.Ctx → result string (list Sample.Value) :=
    λ box _, Ok (box ++ [("core.path", 1)]) in
  (∀ orig c, ov_factory (Sample.extending (Some 3)) orig c =
     let* box := orig (arg_params (Sample.instance (Some 3))) None in
     next box c) ∧
  Sample.resolver (opt_inputs Sample.options) (ctx_inputs Sample.context) None
    = Ok (ctx_inputs Sample.context) ∧
  ∃ d1 d2,
    passed (make Sample.blueprint (Sample.instance (Some 3))) = [d1] ∧
    passed (makeWithOverrides Sample.blueprint (Sample.extending (Some 3))) = [d2] ∧
    ext_factory d2 Sample.context =
      let* values := ext_factory d1 Sample.context in
      let* box := Sample.container values (opt_output Sample.options) in
      next box Sample.context.
Proof.
  intros next.
  assert (Hov : ∀ orig c, ov_factory (Sample.extending (Some 3)) orig c =
            let* box := orig (arg_params (Sample.instance (Some 3))) None in
            next box c) by reflexivity.
  assert (Hres : Sample.resolver (opt_inputs Sample.options)
                   (ctx_inputs Sample.context) None
                 = Ok (ctx_inputs Sample.context)) by (vm_compute; reflexivity).
  split; [exact Hov |]. split; [exact Hres |].
  exact (override_after_original
           Sample.constructor Sample.container Sample.resolver
           Sample.options (Sample.instance (Some 3))
           (Sample.extending (Some 3)) next Sample.context Hov Hres).
Defined.

Lemma makeWithOverrides_plain_declaration_sample :
  ∃ d1 d2,
    passed (make Sample.blueprint (Sample.instance (Some 3))) = [d1] ∧
    passed (makeWithOverrides Sample.blueprint (Sample.reusing (Some 3))) = [d2] ∧
    ext_kind d2 = ext_kind d1 ∧
    ext_namespace d2 = ext_namespace d1 ∧
    ext_name d2 = ext_name d1 ∧
    ext_attachTo d2 = ext_attachTo d1 ∧
    ext_disabled d2 = ext_disabled d1 ∧
    ext_output d2 = ext_output d1 ∧
    ext_output d1 = opt_output Sample.options ∧
    ext_config d2 = ext_config d1 ∧
    ext_config d1 = opt_config Sample.options ∧
    ext_inputs d1 = opt_inputs Sample.options ∧
    ext_inputs d2 = Some (spread (ext_inputs d1)) ∧
    (∀ k, entry (ext_inputs d2) k = entry (ext_inputs d1) k).
Proof.
  exact (makeWithOverrides_plain_declaration
           Sample.constructor Sample.container Sample.resolver
           Sample.options (Sample.instance (Some 3)) (Sample.reusing (Some 3))
           eq_refl eq_refl eq_refl eq_refl eq_refl eq_refl eq_refl).
Defined.
